(** * src/common/types.py: the [Result] container and the [ensure_type] guard

    A shallow embedding of the module [common.types] and of the part of the
    Python object model its two units rely on: strings and the [in] test on
    them, classes with their identity, bases and metaclass hook, [type],
    [isinstance] as the interpreter carries it out, exceptions, and instance
    attributes that are assigned by [__init__] and read by the methods.
    Definitions come first, the facts about them after. *)

From Stdlib Require Import String Ascii List Bool ZArith PeanoNat Lia.
Import ListNotations.
Local Open Scope string_scope.
#[local] Set Warnings "-register-all".

(** ** Strings *)

Module Str.

(** [contains s sub]: [sub] occurs in [s] as a contiguous run of characters. *)
Definition contains (s sub : string) : Prop :=
  exists pre post, s = pre ++ sub ++ post.

(** Python's [sub in s] on strings, by trying every start position. *)
Fixpoint str_in (sub s : string) : bool :=
  prefix sub s ||
  match s with
  | EmptyString => false
  | String _ s' => str_in sub s'
  end.

End Str.

(** ** The Python objects the module handles *)

Module Py.

(** Exceptions, each with its message; [OtherError] is an exception of a
    class that derives from none of the three named here, with the name of
    that class. *)
Inductive exn : Type :=
| ValueError (msg : string)
| TypeError (msg : string)
| AttributeError (msg : string)
| OtherError (cls : string) (msg : string).

(** The outcome of a call: an exception raised, or a value returned. *)
Definition result (A : Type) : Type := (exn + A)%type.

(** Classes.  The built-in ones that the guard is documented with, and
    the classes a class statement creates: [id] tells two class objects
    apart even when they are declared alike, [name] is what [__name__]
    evaluates to, [bases] the classes named in the statement. *)
Inductive pytype : Type :=
| t_object
| t_NoneType
| t_int
| t_bool
| t_str
| t_list
| t_tuple
| t_class (id : nat) (name : string) (bases : list pytype).

(** What the lookup of [inst.__class__] gives. *)
Inductive class_attr : Type :=
| its_type                      (* the inherited attribute: [type(inst)] *)
| other_class (c : pytype)      (* overridden, evaluates to the class [c] *)
| not_a_class                   (* overridden, evaluates to no class *)
| lookup_raises (e : exn).      (* overridden, raises [e] *)

(** Values.  An instance of a user-defined class carries its class, what
    its [__class__] attribute gives, and its own attributes. *)
Inductive pyval : Type :=
| VNone
| VBool (b : bool)
| VInt (n : Z)
| VStr (s : string)
| VList (xs : list pyval)
| VTuple (xs : list pyval)
| VInstance (id : nat) (name : string) (bases : list pytype)
    (klass : class_attr) (attrs : list (string * pyval)).

(** [type(v)] *)
Definition type (v : pyval) : pytype :=
  match v with
  | VNone => t_NoneType
  | VBool _ => t_bool
  | VInt _ => t_int
  | VStr _ => t_str
  | VList _ => t_list
  | VTuple _ => t_tuple
  | VInstance id name bases _ _ => t_class id name bases
  end.

(** The lookup of [v.__class__] *)
Definition __class__ (v : pyval) : class_attr :=
  match v with
  | VInstance _ _ _ klass _ => klass
  | _ => its_type
  end.

(** [cls.__name__] *)
Definition __name__ (cls : pytype) : string :=
  match cls with
  | t_object => "object"
  | t_NoneType => "NoneType"
  | t_int => "int"
  | t_bool => "bool"
  | t_str => "str"
  | t_list => "list"
  | t_tuple => "tuple"
  | t_class _ name _ => name
  end.


(** [a is b] on classes. *)
Fixpoint pytype_eqb (a b : pytype) {struct a} : bool :=
  match a, b with
  | t_object, t_object
  | t_NoneType, t_NoneType
  | t_int, t_int
  | t_bool, t_bool
  | t_str, t_str
  | t_list, t_list
  | t_tuple, t_tuple => true
  | t_class i n bs, t_class j m cs =>
      Nat.eqb i j && String.eqb n m &&
      (fix all2 (xs ys : list pytype) {struct xs} : bool :=
         match xs, ys with
         | [], [] => true
         | x :: xs', y :: ys' => pytype_eqb x y && all2 xs' ys'
         | _, _ => false
         end) bs cs
  | _, _ => false
  end.

(** The interpreter's [PyType_IsSubtype(a, b)]: [b] is [a] or is reached
    from it through bases, which is membership of [b] in [a.__mro__]. *)
Fixpoint PyType_IsSubtype (a b : pytype) {struct a} : bool :=
  pytype_eqb a b ||
  match a with
  | t_object => false
  | t_bool => pytype_eqb t_int b || pytype_eqb t_object b
  | t_class _ _ (c :: cs) => existsb (fun x => PyType_IsSubtype x b) (c :: cs)
  | _ => pytype_eqb t_object b
  end.



(** [type(cls).__instancecheck__(cls, inst)] with [bool()] of what it
    returns, for a class whose metaclass defines the method (ABCMeta, the
    metaclass of Protocol, a metaclass of the user): it sees the instance
    with its attributes, and it may raise. *)
Definition instancecheck : Type := pyval -> result bool.

(** The metaclass hooks of the running program: [None] for a class whose
    metaclass leaves [__instancecheck__] as [type] has it. *)
Definition metaclasses : Type := pytype -> option instancecheck.

(** The metaclass of a built-in class is [type]. *)
Definition __instancecheck__ (env : metaclasses) (cls : pytype) : option instancecheck :=
  match cls with
  | t_class _ _ _ => env cls
  | _ => None
  end.

(** [type.__instancecheck__]: the class of the instance, then what its
    [__class__] attribute gives when that is another class.  An
    AttributeError of the lookup counts as no attribute; any other
    exception leaves the check. *)
Definition object_isinstance (inst : pyval) (cls : pytype) : result bool :=
  if PyType_IsSubtype (type inst) cls then inr true
  else
    match __class__ inst with
    | its_type => inr false
    | other_class icls =>
        if pytype_eqb icls (type inst) then inr false
        else inr (PyType_IsSubtype icls cls)
    | not_a_class => inr false
    | lookup_raises (AttributeError _) => inr false
    | lookup_raises e => inl e
    end.

(** [isinstance(inst, cls)] for a class [cls]: an exact match of the type
    first, then the hook of the metaclass of [cls]. *)
Definition isinstance (env : metaclasses) (inst : pyval) (cls : pytype) : result bool :=
  if pytype_eqb (type inst) cls then inr true
  else
    match __instancecheck__ env cls with
    | Some check => check inst
    | None => object_isinstance inst cls
    end.


(** An argument of a parameter that has a default. *)
Inductive param (A : Type) : Type :=
| omitted
| arg (a : A).
Arguments omitted {A}.
Arguments arg {A} a.

Definition with_default {A : Type} (d : A) (p : param A) : A :=
  match p with
  | omitted => d
  | arg a => a
  end.

(** [x is None] and [x is not None] for an optional [x]. *)
Definition is_None {A : Type} (x : option A) : bool :=
  match x with
  | None => true
  | Some _ => false
  end.

Definition is_not_None {A : Type} (x : option A) : bool :=
  negb (is_None x).

(** [f"{x}"] for [x : str | None]. *)
Definition format (x : option string) : string :=
  match x with
  | Some s => s
  | None => "None"
  end.

End Py.

(** ** Methods as computations on [self]

    A method reads and assigns attributes of the instance it is called on and
    may raise.  It is a function from the instance before the call to the
    outcome and the instance after the call; an exception leaves the
    assignments made before it in place, as in Python. *)

Module Method.
Import Py.

Definition M (S A : Type) : Type := S -> result A * S.

Definition ret {S A : Type} (a : A) : M S A :=
  fun self => (inr a, self).

Definition raise {S A : Type} (e : exn) : M S A :=
  fun self => (inl e, self).

Definition bind {S A B : Type} (m : M S A) (k : A -> M S B) : M S B :=
  fun self =>
    match m self with
    | (inr a, self') => k a self'
    | (inl e, self') => (inl e, self')
    end.

(** The outcome of a call and the instance it leaves behind. *)
Definition outcome {S A : Type} (m : M S A) (self : S) : result A := fst (m self).
Definition after {S A : Type} (m : M S A) (self : S) : S := snd (m self).

End Method.

Declare Scope method_scope.
Delimit Scope method_scope with method.
Notation "x <- m ;; k" := (Method.bind m (fun x => k))
  (at level 61, m at next level, right associativity) : method_scope.
Notation "m ;; k" := (Method.bind m (fun _ => k))
  (at level 61, right associativity) : method_scope.

(** ** class Result(Generic[T]) *)

Module Result.
Import Py Method.
Local Open Scope method_scope.

Section Generic.

(** The type variable [T]; nothing below inspects a [T]. *)
Variable T : Type.

(** An instance: its two attributes, each absent until [__init__] assigns
    it.  An assigned [value] is a [T | None], an assigned [error] a
    [str | None]; Python's [None] is [None] of the inner option. *)
Record t : Type := mk {
  value : option (option T);
  error : option (option string)
}.

(** The instance [object.__new__(Result)] hands to [__init__]. *)
Definition fresh : t := {| value := None; error := None |}.

(** [self.value = v] and [self.error = e] *)
Definition set_value (v : option T) : M t unit :=
  fun self => (inr tt, {| value := Some v; error := error self |}).

Definition set_error (e : option string) : M t unit :=
  fun self => (inr tt, {| value := value self; error := Some e |}).

(** [self.value] and [self.error] *)
Definition get_value : M t (option T) :=
  fun self =>
    match value self with
    | Some v => (inr v, self)
    | None => (inl (AttributeError "'Result' object has no attribute 'value'"), self)
    end.

Definition get_error : M t (option string) :=
  fun self =>
    match error self with
    | Some e => (inr e, self)
    | None => (inl (AttributeError "'Result' object has no attribute 'error'"), self)
    end.

(** [def __init__(self, value: T | None = None, error: str | None = None)] *)
Definition __init__ (value : param (option T)) (error : param (option string)) : M t unit :=
  let value := with_default None value in
  let error := with_default None error in
  set_value value ;;
  set_error error.

(** The call [Result(value, error)]: a fresh instance, initialised. *)
Definition new (value : param (option T)) (error : param (option string)) : t :=
  after (__init__ value error) fresh.

(** [@property is_ok]: [return self.error is None] *)
Definition is_ok : M t bool :=
  e <- get_error ;;
  ret (is_None e).

(** [@property is_err]: [return self.error is not None] *)
Definition is_err : M t bool :=
  e <- get_error ;;
  ret (is_not_None e).

(** [def unwrap(self) -> T] *)
Definition unwrap : M t (option T) :=
  c <- is_err ;;
  if c
  then e <- get_error ;;
       raise (ValueError ("Called unwrap on error: " ++ format e))
  else get_value.

End Generic.

Arguments mk {T} value error.
Arguments value {T} _.
Arguments error {T} _.
Arguments fresh {T}.
Arguments set_value {T} v _.
Arguments set_error {T} e _.
Arguments get_value {T} _.
Arguments get_error {T} _.
Arguments __init__ {T} value error _.
Arguments new {T} value error.
Arguments is_ok {T} _.
Arguments is_err {T} _.
Arguments unwrap {T} _.

End Result.

(** ** def ensure_type(value: Any, expected_type: type, name: str = "value")

    The hooks of the metaclasses are those of the program the call runs
    in.  An exception that [isinstance] raises leaves the function as it
    is. *)

Definition ensure_type (env : Py.metaclasses) (value : Py.pyval)
    (expected_type : Py.pytype) (name : Py.param string) : Py.result unit :=
  let name := Py.with_default "value" name in
  match Py.isinstance env value expected_type with
  | inl e => inl e
  | inr b =>
      if negb b
      then inl (Py.TypeError
                  (name ++ " must be " ++ Py.__name__ expected_type ++ ", "
                        ++ "got " ++ Py.__name__ (Py.type value)))
      else inr tt
  end.

(** ** Programs the guard can run in *)

Module Programs.
Import Py.

(** A program that declares no metaclass of its own. *)
Definition plain : metaclasses := fun _ => None.






(** [collections.abc.Sized], whose metaclass accepts what has [__len__]:
    of the values here, strings, lists and tuples. *)
Definition Sized : pytype := t_class 20 "Sized" [].

Definition with_sized : metaclasses :=
  fun cls =>
    if pytype_eqb cls Sized
    then Some (fun inst =>
                 match inst with
                 | VStr _ | VList _ | VTuple _ => inr true
                 | _ => inr false
                 end)
    else None.

(** [class Animal: ...] and [class Dog(Animal): ...] *)
Definition Animal : pytype := t_class 30 "Animal" [].
Definition Dog : pytype := t_class 31 "Dog" [Animal].
Definition an_animal : pyval := VInstance 30 "Animal" [] its_type [].
Definition a_dog : pyval := VInstance 31 "Dog" [Animal] its_type [("name", VStr "Rex")].

End Programs.

(** * Facts *)

(** ** Substrings *)

Module StrFacts.
Import Str.



Lemma append_assoc (a b c : string) : (a ++ b) ++ c = a ++ b ++ c.
Proof. induction a as [|x a IH]; simpl; [reflexivity | now rewrite IH]. Qed.

Lemma append_empty_r (a : string) : a ++ "" = a.
Proof. induction a as [|x a IH]; simpl; [reflexivity | now rewrite IH]. Qed.

Lemma contains_refl (s : string) : contains s s.
Proof. exists "", "". simpl. now rewrite append_empty_r. Qed.

Lemma contains_app_l (a b sub : string) : contains a sub -> contains (a ++ b) sub.
Proof.
  intros [pre [post ->]]. exists pre, (post ++ b).
  now rewrite !append_assoc.
Qed.

Lemma contains_app_r (a b sub : string) : contains b sub -> contains (a ++ b) sub.
Proof.
  intros [pre [post ->]]. exists (a ++ pre), post.
  now rewrite !append_assoc.
Qed.

End StrFacts.

(** ** Classes and instances *)

Module PyFacts.
Import Py.

(** Induction on classes that reaches the bases of a user-defined class. *)
Section NestedInduction.

Variable P : pytype -> Prop.
Hypothesis case_object : P t_object.
Hypothesis case_NoneType : P t_NoneType.
Hypothesis case_int : P t_int.
Hypothesis case_bool : P t_bool.
Hypothesis case_str : P t_str.
Hypothesis case_list : P t_list.
Hypothesis case_tuple : P t_tuple.
Hypothesis case_class :
  forall id name bases, Forall P bases -> P (t_class id name bases).

Fixpoint pytype_nested_ind (c : pytype) : P c :=
  match c with
  | t_object => case_object
  | t_NoneType => case_NoneType
  | t_int => case_int
  | t_bool => case_bool
  | t_str => case_str
  | t_list => case_list
  | t_tuple => case_tuple
  | t_class id name bases =>
      case_class id name bases
        ((fix all (l : list pytype) : Forall P l :=
            match l with
            | [] => Forall_nil P
            | b :: l' => Forall_cons b (pytype_nested_ind b) (all l')
            end) bases)
  end.

End NestedInduction.

Lemma pytype_eqb_eq (a b : pytype) : pytype_eqb a b = true <-> a = b.
Proof.
  revert b. induction a as [ | | | | | | |i n bs IH] using pytype_nested_ind;
    intros b; destruct b as [ | | | | | | |j m cs]; simpl;
    try (split; [discriminate | congruence]); try (split; reflexivity).
  rewrite !andb_true_iff, Nat.eqb_eq, String.eqb_eq.
  assert (Hall : forall cs,
    (fix all2 (xs ys : list pytype) {struct xs} : bool :=
       match xs, ys with
       | [], [] => true
       | x :: xs', y :: ys' => pytype_eqb x y && all2 xs' ys'
       | _, _ => false
       end) bs cs = true <-> bs = cs).
  { clear cs. induction IH as [|x xs Hx _ IHxs]; intros [|y ys];
      try (split; [discriminate | congruence]); try (split; reflexivity).
    rewrite andb_true_iff, Hx, IHxs. split; [intros [-> ->]; reflexivity|].
    intros H; inversion H; auto. }
  rewrite Hall. split; [intros [[-> ->] ->]; reflexivity|].
  intros H; inversion H; auto.
Qed.

Lemma pytype_eqb_refl (a : pytype) : pytype_eqb a a = true.
Proof. now apply pytype_eqb_eq. Qed.


Lemma IsSubtype_refl (c : pytype) : PyType_IsSubtype c c = true.
Proof. destruct c; cbn [PyType_IsSubtype]; now rewrite pytype_eqb_refl. Qed.












(** *** [isinstance] *)

(** The exact type is accepted before any hook is asked. *)
Lemma isinstance_own_type (env : metaclasses) (v : pyval) :
  isinstance env v (type v) = inr true.
Proof. unfold isinstance. now rewrite pytype_eqb_refl. Qed.


(** Without a hook and with the inherited [__class__], inheritance decides. *)
Lemma isinstance_plain (env : metaclasses) (v : pyval) (t : pytype) :
  __instancecheck__ env t = None ->
  __class__ v = its_type ->
  isinstance env v t = inr (PyType_IsSubtype (type v) t).
Proof.
  intros Hhook Hclass. unfold isinstance. rewrite Hhook.
  destruct (pytype_eqb (type v) t) eqn:E.
  - apply pytype_eqb_eq in E. rewrite <- E. now rewrite IsSubtype_refl.
  - unfold object_isinstance. rewrite Hclass.
    now destruct (PyType_IsSubtype (type v) t).
Qed.



End PyFacts.

(** ** Result *)

Module ResultFacts.
Import Py Method Str StrFacts.

(** What [__init__] does to any instance: it returns and leaves both
    attributes assigned, with the defaults in place of omitted arguments. *)
Lemma init_run {T : Type} (value : param (option T)) (error : param (option string))
    (self : Result.t T) :
  Result.__init__ value error self =
  (inr tt, Result.mk (Some (with_default None value)) (Some (with_default None error))).
Proof. reflexivity. Qed.

Lemma new_eq {T : Type} (value : param (option T)) (error : param (option string)) :
  Result.new value error =
  Result.mk (Some (with_default None value)) (Some (with_default None error)).
Proof. reflexivity. Qed.

(** The two properties and [unwrap] on an initialised instance. *)
Lemma is_ok_run {T : Type} (v : option T) (e : option string) :
  Result.is_ok (Result.mk (Some v) (Some e)) =
  (inr (is_None e), Result.mk (Some v) (Some e)).
Proof. reflexivity. Qed.

Lemma is_err_run {T : Type} (v : option T) (e : option string) :
  Result.is_err (Result.mk (Some v) (Some e)) =
  (inr (is_not_None e), Result.mk (Some v) (Some e)).
Proof. reflexivity. Qed.

Lemma unwrap_run_ok {T : Type} (v : option T) :
  Result.unwrap (Result.mk (Some v) (Some None)) =
  (inr v, Result.mk (Some v) (Some None)).
Proof. reflexivity. Qed.

Lemma unwrap_run_err {T : Type} (v : option T) (e : string) :
  Result.unwrap (Result.mk (Some v) (Some (Some e))) =
  (inl (ValueError ("Called unwrap on error: " ++ e)),
   Result.mk (Some v) (Some (Some e))).
Proof. reflexivity. Qed.

(** No method assigns an attribute: whatever the instance, initialised or
    not, and whatever the outcome, the instance after the call is the one
    before it. *)
Lemma is_ok_keeps_self {T : Type} (self : Result.t T) :
  after Result.is_ok self = self.
Proof. destruct self as [v [e|]]; reflexivity. Qed.

Lemma is_err_keeps_self {T : Type} (self : Result.t T) :
  after Result.is_err self = self.
Proof. destruct self as [v [e|]]; reflexivity. Qed.

Lemma unwrap_keeps_self {T : Type} (self : Result.t T) :
  after Result.unwrap self = self.
Proof. destruct self as [[v|] [[e|]|]]; reflexivity. Qed.

End ResultFacts.

(** * The properties of the module *)

Import Py Method Str.

(** ** Result *)

(** C1. On every constructed Result, [is_ok] returns, and it returns true
    if and only if the stored error is None.  In particular, with any error
    string passed, the empty one included, [is_err] is true and [is_ok] is
    false: the test is on None, not on truthiness. *)
Theorem is_ok_iff_error_is_None (T : Type) :
  (forall (value : param (option T)) (error : param (option string)),
     exists b : bool,
       outcome Result.is_ok (Result.new value error) = inr b /\
       (b = true <-> Result.error (Result.new value error) = Some None)) /\
  (forall e : string,
     outcome Result.is_err (Result.new (arg (@None T)) (arg (Some e))) = inr true /\
     outcome Result.is_ok (Result.new (arg (@None T)) (arg (Some e))) = inr false) /\
  outcome Result.is_err (Result.new (arg (@None T)) (arg (Some ""))) = inr true /\
  outcome Result.is_ok (Result.new (arg (@None T)) (arg (Some ""))) = inr false.
Proof.
  split; [|split; [intros e; split; reflexivity | split; reflexivity]].
  intros value error. rewrite ResultFacts.new_eq.
  exists (is_None (with_default None error)). split; [reflexivity|].
  cbn [Result.error]. destruct (with_default None error) as [e|]; cbn [is_None].
  - split; [discriminate | intros H; inversion H].
  - split; reflexivity.
Qed.

(** C2. A Result constructed with error None (passed or left to its
    default) has [is_err] false, and [unwrap] returns exactly the value given
    at construction. *)
Theorem unwrap_returns_stored_value (T : Type)
    (value : param (option T)) (error : param (option string)) :
  with_default None error = None ->
  outcome Result.is_err (Result.new value error) = inr false /\
  outcome Result.unwrap (Result.new value error) = inr (with_default None value).
Proof.
  intros He. rewrite ResultFacts.new_eq, He. split; reflexivity.
Qed.

(** [Result(value=42, error=None).unwrap() == 42] *)
Lemma result_42_unwraps_to_42 :
  outcome Result.is_err (Result.new (arg (Some 42%Z)) (arg None)) = inr false /\
  outcome Result.unwrap (Result.new (arg (Some 42%Z)) (arg None)) = inr (Some 42%Z).
Proof.
  apply (unwrap_returns_stored_value Z (arg (Some 42%Z)) (arg None)).
  reflexivity.
Defined.

(** C3. On a Result constructed with an error string, [unwrap] raises
    instead of returning, and the message of the exception contains that
    string verbatim; with error None, [unwrap] returns. *)
Theorem unwrap_raises_with_error_text (T : Type) :
  (forall (value : param (option T)) (e : string),
     exists msg : string,
       outcome Result.unwrap (Result.new value (arg (Some e))) = inl (ValueError msg) /\
       contains msg e) /\
  (forall value : param (option T),
     outcome Result.unwrap (Result.new value (arg None)) = inr (with_default None value) /\
     outcome Result.unwrap (Result.new value omitted) = inr (with_default None value)).
Proof.
  split.
  - intros value e. exists ("Called unwrap on error: " ++ e). split.
    + rewrite ResultFacts.new_eq. cbn [with_default]. unfold outcome.
      now rewrite ResultFacts.unwrap_run_err.
    + apply StrFacts.contains_app_r, StrFacts.contains_refl.
  - intros value. split; reflexivity.
Qed.

(** C6. On every constructed Result both properties return, and [is_err]
    is the negation of [is_ok]; so it is with neither argument set and with
    both set. *)
Theorem is_err_is_not_is_ok (T : Type) :
  (forall (value : param (option T)) (error : param (option string)),
     exists b : bool,
       outcome Result.is_ok (Result.new value error) = inr b /\
       outcome Result.is_err (Result.new value error) = inr (negb b)) /\
  (outcome Result.is_ok (Result.new (arg (@None T)) (arg None)) = inr true /\
   outcome Result.is_err (Result.new (arg (@None T)) (arg None)) = inr false) /\
  (forall (v : T) (e : string),
     outcome Result.is_ok (Result.new (arg (Some v)) (arg (Some e))) = inr false /\
     outcome Result.is_err (Result.new (arg (Some v)) (arg (Some e))) = inr true).
Proof.
  split; [|split; [split; reflexivity | intros v e; split; reflexivity]].
  intros value error. exists (is_None (with_default None error)).
  rewrite ResultFacts.new_eq. split; reflexivity.
Qed.

(** C7. Construction validates nothing: for every value and every error,
    each None or not, [__init__] returns without raising, and the instance
    holds exactly the two arguments. *)
Theorem init_stores_arguments_as_given (T : Type) (v : option T) (e : option string) :
  outcome (Result.__init__ (arg v) (arg e)) Result.fresh = inr tt /\
  Result.value (Result.new (arg v) (arg e)) = Some v /\
  Result.error (Result.new (arg v) (arg e)) = Some e.
Proof. repeat split. Qed.

(** C8. [unwrap] on a Result in the failure state raises and leaves the
    instance as it was: the value and the error are those of the
    construction, and [is_ok] and [is_err] answer as before the call. *)
Theorem unwrap_failure_keeps_result (T : Type)
    (value : param (option T)) (e : string) :
  (exists msg : string,
     outcome Result.unwrap (Result.new value (arg (Some e))) = inl (ValueError msg)) /\
  after Result.unwrap (Result.new value (arg (Some e))) = Result.new value (arg (Some e)) /\
  Result.value (after Result.unwrap (Result.new value (arg (Some e))))
    = Some (with_default None value) /\
  Result.error (after Result.unwrap (Result.new value (arg (Some e))))
    = Some (Some e) /\
  outcome Result.is_ok (after Result.unwrap (Result.new value (arg (Some e))))
    = outcome Result.is_ok (Result.new value (arg (Some e))) /\
  outcome Result.is_err (after Result.unwrap (Result.new value (arg (Some e))))
    = outcome Result.is_err (Result.new value (arg (Some e))).
Proof.
  split.
  - exists ("Called unwrap on error: " ++ e). reflexivity.
  - rewrite ResultFacts.unwrap_keeps_self. repeat split.
Qed.

(** C10. [Result()] is permitted: both attributes default to None, so
    [is_ok] is true, [is_err] is false, and [unwrap] returns None. *)
Theorem no_argument_construction (T : Type) :
  outcome (Result.__init__ (@omitted (option T)) omitted) Result.fresh = inr tt /\
  Result.value (Result.new (@omitted (option T)) omitted) = Some None /\
  Result.error (Result.new (@omitted (option T)) omitted) = Some None /\
  outcome Result.is_ok (Result.new (@omitted (option T)) omitted) = inr true /\
  outcome Result.is_err (Result.new (@omitted (option T)) omitted) = inr false /\
  outcome Result.unwrap (Result.new (@omitted (option T)) omitted) = inr None.
Proof. repeat split. Qed.

(** The scenario [r = Result(value=None, error="not found")]. *)
Example not_found_is_err :
  outcome Result.is_err (Result.new (arg (@None Z)) (arg (Some "not found"))) = inr true.
Proof. reflexivity. Qed.

Example not_found_unwrap :
  outcome Result.unwrap (Result.new (arg (@None Z)) (arg (Some "not found")))
  = inl (ValueError "Called unwrap on error: not found") /\
  str_in "not found" "Called unwrap on error: not found" = true.
Proof. split; reflexivity. Qed.

(** Reading an attribute before [__init__] has assigned it raises. *)
Example fresh_has_no_error :
  outcome Result.is_ok (@Result.fresh Z)
  = inl (AttributeError "'Result' object has no attribute 'error'").
Proof. reflexivity. Qed.

(** ** ensure_type *)

Module EnsureTypeFacts.
Import StrFacts PyFacts.

(** The message of the TypeError, as the f-string builds it. *)
Definition mismatch_message (value : pyval) (expected_type : pytype)
    (name : param string) : string :=
  with_default "value" name ++ " must be " ++ __name__ expected_type ++ ", "
    ++ "got " ++ __name__ (type value).

(** The three ways a call can go, by what [isinstance] does. *)
Lemma ensure_type_true (env : metaclasses) (value : pyval) (expected_type : pytype)
    (name : param string) :
  isinstance env value expected_type = inr true ->
  ensure_type env value expected_type name = inr tt.
Proof. intros H. unfold ensure_type. now rewrite H. Qed.




Lemma message_contains_name (value : pyval) (expected_type : pytype) (name : param string) :
  contains (mismatch_message value expected_type name) (with_default "value" name).
Proof. apply contains_app_l, contains_refl. Qed.



End EnsureTypeFacts.

(** A Dog passes where an Animal is expected, an Animal does not pass where
    a Dog is. *)
Example dog_is_animal :
  ensure_type Programs.plain Programs.a_dog Programs.Animal omitted = inr tt.
Proof. reflexivity. Qed.

Example animal_is_not_dog :
  ensure_type Programs.plain Programs.an_animal Programs.Dog (arg "pet")
  = inl (TypeError "pet must be Dog, got Animal").
Proof. reflexivity. Qed.

(** Two classes declared alike are two classes. *)
Example same_declaration_other_class :
  ensure_type Programs.plain (VInstance 40 "A" [] its_type []) (t_class 41 "A" []) omitted
  = inl (TypeError "value must be A, got A").
Proof. reflexivity. Qed.

(** A list is Sized by the hook of the metaclass, not by inheritance; an
    int is not. *)
Example list_is_sized :
  ensure_type Programs.with_sized (VList [VInt 1]) Programs.Sized (arg "items") = inr tt.
Proof. reflexivity. Qed.

Example int_is_not_sized :
  ensure_type Programs.with_sized (VInt 1) Programs.Sized (arg "items")
  = inl (TypeError "items must be Sized, got int").
Proof. reflexivity. Qed.

(** An instance whose [__class__] gives int passes as an int. *)
Example claimed_class_is_asked :
  ensure_type Programs.plain (VInstance 50 "Mock" [] (other_class t_int) []) t_int omitted
  = inr tt.
Proof. reflexivity. Qed.







(** * Further properties of the module *)

(** ** ensure_type and the class hierarchy *)


(** X2. A value always passes the guard against its own class:
    [ensure_type(v, type(v))] returns, for user-defined classes with any
    bases and any metaclass as for the built-in ones. *)
Theorem ensure_type_own_class (env : metaclasses) (value : pyval)
    (name : param string) :
  ensure_type env value (type value) name = inr tt.
Proof.
  apply EnsureTypeFacts.ensure_type_true, PyFacts.isinstance_own_type.
Qed.







(** X6. The name plays no part in the decision: the guard returns under one
    name exactly when it returns under any other, or under none. *)
Theorem ensure_type_decision_ignores_name (env : metaclasses) (value : pyval)
    (expected_type : pytype) (name name' : param string) :
  ensure_type env value expected_type name = inr tt <->
  ensure_type env value expected_type name' = inr tt.
Proof.
  unfold ensure_type.
  destruct (isinstance env value expected_type) as [e|[|]]; cbn [negb].
  - split; discriminate.
  - split; reflexivity.
  - split; discriminate.
Qed.

(** X7. Against an ordinary expected type, the guard looks at the class of
    an ordinary value and at nothing else: two values of the same class,
    whatever their elements or attributes, get the same outcome, message
    included. *)
Theorem ensure_type_depends_on_class_only (env : metaclasses) (value value' : pyval)
    (expected_type : pytype) (name : param string) :
  __instancecheck__ env expected_type = None ->
  __class__ value = its_type ->
  __class__ value' = its_type ->
  type value = type value' ->
  ensure_type env value expected_type name = ensure_type env value' expected_type name.
Proof.
  intros Hhook Hc Hc' Htype. unfold ensure_type.
  rewrite (PyFacts.isinstance_plain env value expected_type Hhook Hc).
  rewrite (PyFacts.isinstance_plain env value' expected_type Hhook Hc').
  now rewrite Htype.
Qed.

(** Two Dogs with different attributes. *)
Lemma ensure_type_same_for_any_dog :
  ensure_type Programs.plain Programs.a_dog t_list (arg "items")
  = ensure_type Programs.plain (VInstance 31 "Dog" [Programs.Animal] its_type [])
      t_list (arg "items").
Proof.
  apply (ensure_type_depends_on_class_only Programs.plain Programs.a_dog
           (VInstance 31 "Dog" [Programs.Animal] its_type []) t_list (arg "items"));
    reflexivity.
Defined.

(** ** Result: what the methods leave alone and how they combine *)

(** X8. None of [is_ok], [is_err] and [unwrap] assigns an attribute: on
    every instance, in the success state, in the failure state or not yet
    initialised, and whether the call returns or raises, the instance after
    the call is the instance before it. *)
Theorem methods_never_assign (T : Type) (self : Result.t T) :
  after Result.is_ok self = self /\
  after Result.is_err self = self /\
  after Result.unwrap self = self.
Proof.
  split; [apply ResultFacts.is_ok_keeps_self|].
  split; [apply ResultFacts.is_err_keeps_self | apply ResultFacts.unwrap_keeps_self].
Qed.

(** X9. [is_ok] tells what [unwrap] will do.  On every constructed Result,
    [is_ok] is true exactly when [unwrap] returns the stored value, and
    [is_err] is true exactly when [unwrap] raises a ValueError. *)
Theorem is_ok_predicts_unwrap (T : Type)
    (value : param (option T)) (error : param (option string)) :
  (outcome Result.is_ok (Result.new value error) = inr true <->
   outcome Result.unwrap (Result.new value error) = inr (with_default None value)) /\
  (outcome Result.is_err (Result.new value error) = inr true <->
   exists msg : string,
     outcome Result.unwrap (Result.new value error) = inl (ValueError msg)).
Proof.
  rewrite ResultFacts.new_eq. destruct (with_default None error) as [e|].
  - split; split.
    + discriminate.
    + discriminate.
    + intros _. now exists ("Called unwrap on error: " ++ e).
    + reflexivity.
  - split; split.
    + reflexivity.
    + reflexivity.
    + discriminate.
    + intros [msg H]. discriminate.
Qed.

(** X10. Looking before unwrapping, or unwrapping again, changes nothing:
    on every instance, [unwrap] on the instance that a read of [is_ok] or
    of [is_err], or a first [unwrap], has left behind, whether that call
    returned or raised, has the outcome of [unwrap] on the instance before
    it. *)
Theorem unwrap_outcome_is_repeatable (T : Type) (self : Result.t T) :
  outcome Result.unwrap (after Result.is_ok self) = outcome Result.unwrap self /\
  outcome Result.unwrap (after Result.is_err self) = outcome Result.unwrap self /\
  outcome Result.unwrap (after Result.unwrap self) = outcome Result.unwrap self.
Proof.
  rewrite ResultFacts.is_ok_keeps_self, ResultFacts.is_err_keeps_self,
    ResultFacts.unwrap_keeps_self.
  repeat split.
Qed.
